(** * PDV flight simulation (src/Code/ensemble_system/pdv.h)

    Shallow embedding of the PDV (powered delivery vehicle) class: its
    energy accountant, its accumulator mutators and the flight simulation
    driver.  Finite doubles are modelled by exact rationals [Q]; the
    non-finite IEEE values are kept as separate constructors where the
    accountant's behaviour on them matters. *)

From Stdlib Require Import Arith QArith Qpower Qminmax Qabs List Bool Lia Lqa.
Import ListNotations.

Open Scope Q_scope.

(** ** Doubles: finite values as rationals, plus the IEEE specials *)

Inductive double : Type :=
| Fin (q : Q)
| PInf
| NInf
| NaN.

Definition is_finite (x : double) : bool :=
  match x with Fin _ => true | _ => false end.

(** IEEE addition on the special values; finite sums are exact. *)
Definition dadd (x y : double) : double :=
  match x, y with
  | Fin a, Fin b => Fin (a + b)
  | NaN, _ | _, NaN => NaN
  | PInf, NInf | NInf, PInf => NaN
  | PInf, _ | _, PInf => PInf
  | NInf, _ | _, NInf => NInf
  end.

Definition sign_inf (positive : bool) : double :=
  if positive then PInf else NInf.

(** IEEE multiplication on the special values; finite products are exact. *)
Definition dmul (x y : double) : double :=
  match x, y with
  | Fin a, Fin b => Fin (a * b)
  | NaN, _ | _, NaN => NaN
  | Fin a, PInf | PInf, Fin a =>
      if Qeq_bool a 0 then NaN else sign_inf (negb (Qle_bool a 0))
  | Fin a, NInf | NInf, Fin a =>
      if Qeq_bool a 0 then NaN else sign_inf (Qle_bool a 0)
  | PInf, PInf | NInf, NInf => PInf
  | PInf, NInf | NInf, PInf => NInf
  end.

(** ** Fixed PDV parameters (private members of [PDV]) *)

(** [int min_charge_num = 20;] *)
Definition min_charge_num : nat := 20.
(** [int flight_altitude = 20;] *)
Definition flight_altitude : Z := 20.
(** [double pdv_power = 363.888;] [W] *)
Definition pdv_power : Q := 363.888.
(** [double f_speed = 2.16e4;] [m/h] *)
Definition f_speed : Q := 21600.
(** The per-leg overhead literal [5.6e-3] [h] of [calcEnergyCost]. *)
Definition per_leg_overhead : Q := 0.0056.

(** ** Energy accountant *)

(** [double calcEnergyCost(const double& t) const
      { return this->pdv_power * (t + 5.6e-3); }] *)
Definition calcEnergyCost (t : double) : double :=
  dmul (Fin pdv_power) (dadd t (Fin per_leg_overhead)).

(** The same expression on finite arguments. *)
Definition calcEnergyCostQ (t : Q) : Q := pdv_power * (t + per_leg_overhead).

(** A call of [calcEnergyCost] as seen by its caller: the body is a single
    [return] with no check and no [throw], so every call yields a value. *)
Inductive ErrorKind : Type :=
| InvalidArgument
| InsufficientRequests
| EnergyExhausted
| EmptyPath.

Inductive Result (A : Type) : Type :=
| Ok (v : A)
| Err (k : ErrorKind).
Arguments Ok {A} v.
Arguments Err {A} k.

Definition calcEnergyCost_call (t : double) : Result double :=
  Ok (calcEnergyCost t).

(** Numeric comparisons of doubles; they hold only between finite values. *)
Definition deq (x y : double) : Prop :=
  match x, y with Fin a, Fin b => a == b | _, _ => False end.
Definition dlt (x y : double) : Prop :=
  match x, y with Fin a, Fin b => a < b | _, _ => False end.

(** ** Geometry and the [PDV] object *)

(** [Point<T>] at the constant flight altitude: its planar coordinates. *)
Record Point : Type := mkPoint { px : Q; py : Q }.

Definition point_eqb (a b : Point) : bool :=
  Qeq_bool (px a) (px b) && Qeq_bool (py a) (py b).

(** The accumulators [PDV] inherits (protected) from [SensorNode<T>]. *)
Record SensorNodeAcc : Type := mkAcc {
  flight_time_ : Q;
  pdv_energy_ : Q;
  flight_distance_ : Q
}.

(** A [PDV<T>] object: its public fields and its [SensorNode<T>] base. *)
Record PDV : Type := mkPDV {
  pos : Point;
  f_time : Q;
  f_eng : Q;
  f_dist : Q;
  base_sn : SensorNodeAcc
}.

Definition set_acc (p : PDV) (a : SensorNodeAcc) : PDV :=
  {| pos := pos p; f_time := f_time p; f_eng := f_eng p; f_dist := f_dist p;
     base_sn := a |}.

(** [void updateFlightTime(const double& t) { this->flight_time_ += t; }] *)
Definition updateFlightTime (p : PDV) (t : Q) : PDV :=
  let a := base_sn p in
  set_acc p (mkAcc (flight_time_ a + t) (pdv_energy_ a) (flight_distance_ a)).

(** [void updateFlightTime(const double& t1, const double& t2)
      { this->flight_time_ += (t1 + t2); }] *)
Definition updateFlightTime2 (p : PDV) (t1 t2 : Q) : PDV :=
  let a := base_sn p in
  set_acc p (mkAcc (flight_time_ a + (t1 + t2)) (pdv_energy_ a) (flight_distance_ a)).

(** [void updateEnergy(const double& e) { this->pdv_energy_ -= e; }] *)
Definition updateEnergy (p : PDV) (e : Q) : PDV :=
  let a := base_sn p in
  set_acc p (mkAcc (flight_time_ a) (pdv_energy_ a - e) (flight_distance_ a)).

(** [void updateEnergy(const double& e1, const double& e2)
      { this->pdv_energy_ -= (e1 + e2); }] *)
Definition updateEnergy2 (p : PDV) (e1 e2 : Q) : PDV :=
  let a := base_sn p in
  set_acc p (mkAcc (flight_time_ a) (pdv_energy_ a - (e1 + e2)) (flight_distance_ a)).

(** [void updateFlightDist(const double& d) { this->flight_distance_ += d; }] *)
Definition updateFlightDist (p : PDV) (d : Q) : PDV :=
  let a := base_sn p in
  set_acc p (mkAcc (flight_time_ a) (pdv_energy_ a) (flight_distance_ a + d)).

(** The public part of a [PDV] object. *)
Definition public_fields (p : PDV) : Point * Q * Q * Q :=
  (pos p, f_time p, f_eng p, f_dist p).

(** ** Sensor nodes *)

(** The fields of [SensorNode] the simulation reads and writes. *)
Record SensorNode : Type := mkNode {
  sn_pos : Point;
  capacitance : Q;
  v_max : Q;
  v_current : Q;
  requests_service : bool;
  charged : bool
}.

(** The node state after IPT: topped up, request cleared, marked charged. *)
Definition charge_node (n : SensorNode) : SensorNode :=
  {| sn_pos := sn_pos n; capacitance := capacitance n; v_max := v_max n;
     v_current := v_max n; requests_service := false; charged := true |}.

(** First node of the catalog standing at waypoint [wp]. *)
Fixpoint find_node (ns : list SensorNode) (wp : Point) : option SensorNode :=
  match ns with
  | [] => None
  | n :: ns' => if point_eqb (sn_pos n) wp then Some n else find_node ns' wp
  end.

(** Charge the first node at [wp] in place; the other nodes are untouched. *)
Fixpoint charge_at (ns : list SensorNode) (wp : Point) : list SensorNode :=
  match ns with
  | [] => []
  | n :: ns' =>
      if point_eqb (sn_pos n) wp then charge_node n :: ns'
      else n :: charge_at ns' wp
  end.

Definition count_requests (ns : list SensorNode) : nat :=
  length (filter requests_service ns).

(** ** The flight simulation driver

    [pdv.h] declares [taskCheck], [iptEnergyCost], [updatePdvStatus] and
    [flightSimulation]; their bodies live in [pdv.cpp], which is not part of
    the sources.  They are modelled below from the specification of the
    driver (sections 4.1 to 4.3), reusing the accountant
    [calcEnergyCostQ] above for every flight leg. *)

Section Driver.

(** [Point<T>]'s distance (an external collaborator, Euclidean). *)
Variable distance : Point -> Point -> Q.
(** RF-to-DC conversion efficiency of the IPT link. *)
Variable eta_rf2dc : Q.
(** Configured safety margin of the return-to-home check [Wh]. *)
Variable e_safety : Q.
(** Minimum number of requesting nodes ([min_charge_num] in the source). *)
Variable min_requests : nat.

(** The base station, at the origin. *)
Definition base : Point := mkPoint 0 0.

(** Modelled from the spec: the body of [iptEnergyCost], missing from
    src/ ([pdv.cpp]): [E_ipt = C (v_max - v_cur)^2 / (2 eta 3600)] [Wh]. *)
Definition iptEnergyCost (n : SensorNode) : Q :=
  capacitance n * (v_max n - v_current n) ^ 2 / (2 * eta_rf2dc * 3600).

(** A call [iptEnergyCost(next_sn, e)] as seen by its caller.  The
    declaration [void iptEnergyCost(const SensorNode<T>& next_sn, double& e)]
    (pdv.h:79, "e: Energy variable to be updated") returns nothing: the cost
    above is stored into the caller's variable [e], and [next_sn] is const.
    Modelled from the spec: the body (missing from src/) has no failure path
    on a node with finite parameters. *)
Definition iptEnergyCost_call (next_sn : SensorNode) (e : double) : Result double :=
  Ok (Fin (iptEnergyCost next_sn)).

(** Modelled from the spec: the body of [taskCheck], missing from src/
    ([pdv.cpp]): the run may launch unless fewer than [min_requests] nodes
    request service. *)
Definition taskCheck (sn_list : list SensorNode) : bool :=
  negb (Nat.ltb (count_requests sn_list) min_requests).

(** Flight leg of length [d]: time [d / v] and energy
    [calcEnergyCost (d / v)]. *)
Definition legTime (d : Q) : Q := d / f_speed.
Definition legEnergy (d : Q) : Q := calcEnergyCostQ (legTime d).

(** The PDV state the driver tracks. *)
Record PdvState : Type := mkPdvState {
  position : Point;
  flight_time : Q;
  remaining_energy : Q;
  flight_distance : Q
}.

(** Driver state: PDV, node catalog, charged-energy accumulator and the
    number of requesting nodes serviced so far. *)
Record SimState : Type := mkSimState {
  pdv : PdvState;
  nodes : list SensorNode;
  charged_e : Q;
  serviced : nat
}.

(** IPT cost at waypoint [wp] (zero when no node stands there). *)
Definition charge_cost (ns : list SensorNode) (wp : Point) : Q :=
  match find_node ns wp with Some n => iptEnergyCost n | None => 0 end.

(** 1 when the node at [wp] is a requesting node, else 0. *)
Definition newly_serviced (ns : list SensorNode) (wp : Point) : nat :=
  match find_node ns wp with
  | Some n => if requests_service n then 1%nat else 0%nat
  | None => 0%nat
  end.

(** Modelled from the spec: the return-to-home policy of
    [flightSimulation] (section 4.2). *)
Definition required_energy (st : SimState) (wp : Point) : Q :=
  legEnergy (distance (position (pdv st)) wp)
  + charge_cost (nodes st) wp
  + legEnergy (distance wp base)
  + e_safety.

Definition can_continue (st : SimState) (wp : Point) : bool :=
  Qle_bool (required_energy st wp) (remaining_energy (pdv st)).

(** Modelled from the spec: servicing one waypoint (EN_ROUTE, CHARGING):
    fly to [wp], then top up the node standing there. *)
Definition service (st : SimState) (wp : Point) : SimState :=
  let S := pdv st in
  let d := distance (position S) wp in
  let e_c := charge_cost (nodes st) wp in
  {| pdv := {| position := wp;
               flight_time := flight_time S + legTime d;
               remaining_energy := remaining_energy S - legEnergy d - e_c;
               flight_distance := flight_distance S + d |};
     nodes := charge_at (nodes st) wp;
     charged_e := charged_e st + e_c;
     serviced := (serviced st + newly_serviced (nodes st) wp)%nat |}.

(** Modelled from the spec: return to home, straight to the base.  When
    the remaining energy does not cover the leg, it is drained to 0 and
    the run is flagged [EnergyExhausted]. *)
Definition rth_exhausted (st : SimState) : bool :=
  negb (Qle_bool (legEnergy (distance (position (pdv st)) base))
                 (remaining_energy (pdv st))).

Definition rth (st : SimState) : SimState :=
  let S := pdv st in
  let d := distance (position S) base in
  {| pdv := {| position := base;
               flight_time := flight_time S + legTime d;
               remaining_energy :=
                 if rth_exhausted st then 0 else remaining_energy S - legEnergy d;
               flight_distance := flight_distance S + d |};
     nodes := nodes st;
     charged_e := charged_e st;
     serviced := serviced st |}.

(** Modelled from the spec: the main loop.  The result lists the states
    the caller can observe after each transition, ending with the state
    after the return to home. *)
Fixpoint fly (st : SimState) (path : list Point) : list SimState :=
  match path with
  | [] => [rth st]
  | wp :: rest =>
      if can_continue st wp then service st wp :: fly (service st wp) rest
      else [rth st]
  end.

(** The state from which the return to home starts. *)
Fixpoint fly_end (st : SimState) (path : list Point) : SimState :=
  match path with
  | [] => st
  | wp :: rest =>
      if can_continue st wp then fly_end (service st wp) rest else st
  end.

Record SimResult : Type := mkResult {
  report : option ErrorKind;
  completion : Q;
  final_state : SimState;
  observed : list SimState
}.

Definition initial_state (pdv0 : PdvState) (sn_list : list SensorNode) : SimState :=
  mkSimState pdv0 sn_list 0 0.

(** Completion percentage, clamped to [0, 100]. *)
Definition completion_ratio (serv init : nat) : Q :=
  Qmax 0 (Qmin 100 (100 * inject_Z (Z.of_nat serv) / inject_Z (Z.of_nat init))).

(** Modelled from the spec: [flightSimulation]. *)
Definition flightSimulation (pdv0 : PdvState) (sn_list : list SensorNode)
    (path : list Point) : SimResult :=
  let st0 := initial_state pdv0 sn_list in
  if negb (taskCheck sn_list) then mkResult (Some InsufficientRequests) 0 st0 [st0]
  else
    match path with
    | [] => mkResult (Some EmptyPath) 0 st0 [st0]
    | _ :: _ =>
        let fin := rth (fly_end st0 path) in
        mkResult (if rth_exhausted (fly_end st0 path) then Some EnergyExhausted else None)
                 (completion_ratio (serviced fin) (count_requests sn_list))
                 fin (st0 :: fly st0 path)
    end.

End Driver.

(** ** Predicates over runs *)

(** [st'] is [st] with every update of waypoint [wp] applied: position,
    time, distance, energy and the node standing at [wp]. *)
Definition fully_serviced (distance : Point -> Point -> Q) (eta_rf2dc : Q)
    (st : SimState) (wp : Point) (st' : SimState) : Prop :=
  let S := pdv st in
  let S' := pdv st' in
  let d := distance (position S) wp in
  position S' = wp
  /\ flight_time S' = flight_time S + legTime d
  /\ flight_distance S' = flight_distance S + d
  /\ remaining_energy S' = remaining_energy S - legEnergy d
                           - charge_cost eta_rf2dc (nodes st) wp
  /\ nodes st' = charge_at (nodes st) wp.

(** [sts] are the states after servicing each waypoint of [wps] in turn. *)
Fixpoint serviced_chain (distance : Point -> Point -> Q) (eta_rf2dc : Q)
    (st : SimState) (wps : list Point) (sts : list SimState) : Prop :=
  match wps, sts with
  | [], [] => True
  | wp :: wps', st' :: sts' =>
      fully_serviced distance eta_rf2dc st wp st'
      /\ serviced_chain distance eta_rf2dc st' wps' sts'
  | _, _ => False
  end.

(** Every node of the catalog has a non-negative capacitance. *)
Definition caps_nonneg (ns : list SensorNode) : Prop :=
  Forall (fun n => 0 <= capacitance n) ns.

(** [R] holds between every two consecutive elements of a list. *)
Fixpoint stepwise {A : Type} (R : A -> A -> Prop) (l : list A) : Prop :=
  match l with
  | x :: ((y :: _) as l') => R x y /\ stepwise R l'
  | _ => True
  end.

(** Distance between points of one axis-parallel line (used to run the
    driver on concrete inputs). *)
Definition line_distance (a b : Point) : Q :=
  Qabs (px a - px b) + Qabs (py a - py b).

(** A sensor node at [(x, 0)], [C = 1 F], [v_max = 3 V], empty, requesting. *)
Definition sample_node (x : Q) : SensorNode :=
  mkNode (mkPoint x 0) 1 3 0 true false.

(** Scenario S2: five requesting nodes. *)
Definition s2_nodes : list SensorNode := map sample_node [1; 2; 3; 4; 5].

(** Scenario S3: three nodes on the x axis, visited in order. *)
Definition s3_nodes : list SensorNode := map sample_node [1000; 2000; 10000].
Definition s3_path : list Point := map (fun x => mkPoint x 0) [1000; 2000; 10000].

(** Scenario S5: a node at (100, 0) already at [v_max = 3 V]. *)
Definition full_node : SensorNode := mkNode (mkPoint 100 0) 1 3 3 true false.

(** The PDV at the base with [e] Wh left. *)
Definition sample_pdv (e : Q) : PdvState := mkPdvState base 0 e 0.

(** ** Accountant *)

(** C2: on every finite flight time [t], [calcEnergyCost t] is
    [363.888 * (t + 5.6e-3)] Wh; a zero-length leg still costs the
    per-leg overhead [363.888 * 5.6e-3 > 0]. *)
Theorem calcEnergyCost_formula :
  forall t : Q,
    calcEnergyCost (Fin t) = Fin (363.888 * (t + 0.0056))
    /\ legEnergy 0 == 363.888 * 0.0056
    /\ 0 < legEnergy 0.
Proof.
  intro t; split; [reflexivity | split; reflexivity].
Qed.



(** ** Mutators *)

(** C10: [updateFlightTime], [updateEnergy] and [updateFlightDist] (both
    overloads each) change only their own inherited accumulator; the public
    fields [pos], [f_time], [f_eng], [f_dist] are left unchanged. *)
Theorem mutators_frame :
  forall (p : PDV) (x y : Q),
    let a := base_sn p in
    public_fields (updateFlightTime p x) = public_fields p
    /\ public_fields (updateFlightTime2 p x y) = public_fields p
    /\ public_fields (updateEnergy p x) = public_fields p
    /\ public_fields (updateEnergy2 p x y) = public_fields p
    /\ public_fields (updateFlightDist p x) = public_fields p
    /\ base_sn (updateFlightTime p x) = mkAcc (flight_time_ a + x) (pdv_energy_ a) (flight_distance_ a)
    /\ base_sn (updateFlightTime2 p x y) = mkAcc (flight_time_ a + (x + y)) (pdv_energy_ a) (flight_distance_ a)
    /\ base_sn (updateEnergy p x) = mkAcc (flight_time_ a) (pdv_energy_ a - x) (flight_distance_ a)
    /\ base_sn (updateEnergy2 p x y) = mkAcc (flight_time_ a) (pdv_energy_ a - (x + y)) (flight_distance_ a)
    /\ base_sn (updateFlightDist p x) = mkAcc (flight_time_ a) (pdv_energy_ a) (flight_distance_ a + x).
Proof.
  intros p x y a; repeat split.
Qed.

(** ** Return-to-home policy *)

Lemma Qle_bool_false (x y : Q) : y < x -> Qle_bool x y = false.
Proof.
  intro H. destruct (Qle_bool x y) eqn:E; [|reflexivity].
  apply Qle_bool_iff in E. exfalso. exact (Qlt_not_le _ _ H E).
Qed.

(** C1: at waypoint [wp] the driver continues (services [wp], then goes
    on with the rest of the path) exactly when the remaining energy is at
    least [E_to + E_charge + E_home + E_safety]; otherwise it returns home
    from its current position.  On exact equality it continues. *)
Theorem fly_continue_policy :
  forall (distance : Point -> Point -> Q) (eta_rf2dc e_safety : Q)
         (st : SimState) (wp : Point) (rest : list Point),
    let S := pdv st in
    let E_to := legEnergy (distance (position S) wp) in
    let E_charge := charge_cost eta_rf2dc (nodes st) wp in
    let E_home := legEnergy (distance wp base) in
    let E_required := E_to + E_charge + E_home + e_safety in
    (E_required <= remaining_energy S ->
       fly distance eta_rf2dc e_safety st (wp :: rest)
       = service distance eta_rf2dc st wp
           :: fly distance eta_rf2dc e_safety (service distance eta_rf2dc st wp) rest)
    /\ (remaining_energy S < E_required ->
       fly distance eta_rf2dc e_safety st (wp :: rest) = [rth distance st])
    /\ (remaining_energy S == E_required ->
       fly distance eta_rf2dc e_safety st (wp :: rest)
       = service distance eta_rf2dc st wp
           :: fly distance eta_rf2dc e_safety (service distance eta_rf2dc st wp) rest).
Proof.
  intros distance eta_rf2dc e_safety st wp rest S E_to E_charge E_home E_required.
  assert (Hc : E_required <= remaining_energy S ->
               can_continue distance eta_rf2dc e_safety st wp = true)
    by (intro H; apply Qle_bool_iff; exact H).
  split; [|split]; intro H; simpl.
  - rewrite (Hc H). reflexivity.
  - unfold can_continue. rewrite Qle_bool_false by exact H. reflexivity.
  - rewrite Hc by (rewrite H; apply Qle_refl). reflexivity.
Qed.

(** The scenario S1 policy check passes: one node at (100, 0), 187 Wh. *)
Lemma fly_continue_policy_witness :
  let st := initial_state (sample_pdv 187) [sample_node 100] in
  fly line_distance 0.5 0 st [mkPoint 100 0]
  = service line_distance 0.5 st (mkPoint 100 0)
      :: fly line_distance 0.5 0 (service line_distance 0.5 st (mkPoint 100 0)) [].
Proof.
  intro st.
  apply (proj1 (fly_continue_policy line_distance 0.5 0 st (mkPoint 100 0) [])).
  vm_compute. discriminate.
Defined.

(** ** Pre-flight check *)

(** C5: with fewer than [min_requests] requesting nodes the run does not
    launch: the caller gets [InsufficientRequests], a 0% completion, and
    the PDV and the node catalog exactly as given. *)
Theorem flightSimulation_insufficient_requests :
  forall (distance : Point -> Point -> Q) (eta_rf2dc e_safety : Q)
         (min_requests : nat) (pdv0 : PdvState) (sn_list : list SensorNode)
         (path : list Point),
    (count_requests sn_list < min_requests)%nat ->
    let r := flightSimulation distance eta_rf2dc e_safety min_requests pdv0 sn_list path in
    report r = Some InsufficientRequests
    /\ completion r == 0
    /\ pdv (final_state r) = pdv0
    /\ nodes (final_state r) = sn_list
    /\ observed r = [initial_state pdv0 sn_list].
Proof.
  intros distance eta_rf2dc e_safety min_requests pdv0 sn_list path Hlt r.
  unfold r, flightSimulation, taskCheck.
  apply Nat.ltb_lt in Hlt. rewrite Hlt. simpl.
  repeat split.
Qed.

(** Scenario S2: 5 requesting nodes against the default threshold 20. *)
Lemma flightSimulation_insufficient_requests_witness :
  (count_requests (s2_nodes) < min_charge_num)%nat
  /\ report (flightSimulation line_distance 0.5 0 min_charge_num (sample_pdv 187)
               (s2_nodes) [mkPoint 1 0])
     = Some InsufficientRequests.
Proof.
  split; [vm_compute; lia|].
  exact (proj1 (flightSimulation_insufficient_requests line_distance 0.5 0 min_charge_num
           (sample_pdv 187) (s2_nodes) [mkPoint 1 0]
           ltac:(vm_compute; lia))).
Defined.

(** ** Per-waypoint atomicity *)

Lemma last_cons {A : Type} (x : A) (l : list A) (d : A) :
  last (x :: l) d = last l x.
Proof.
  revert x d. induction l as [|y l IH]; intros x d; [reflexivity|].
  change (last (y :: l) d = last (y :: l) x). rewrite (IH y d), (IH y x). reflexivity.
Qed.

Lemma service_fully_serviced distance eta_rf2dc st wp :
  fully_serviced distance eta_rf2dc st wp (service distance eta_rf2dc st wp).
Proof. repeat split. Qed.

(** C3: every run splits the path into a serviced prefix and an untouched
    rest.  Each waypoint of the prefix is fully serviced (position, time,
    distance, energy and node all updated), the observable states are
    exactly those fully serviced states followed by the return home from
    the last of them, and when the rest is non-empty its first waypoint
    failed the policy check and none of its updates is applied (the
    return home leaves the nodes and the accumulators as they were). *)
Theorem fly_all_or_nothing :
  forall (distance : Point -> Point -> Q) (eta_rf2dc e_safety : Q)
         (st : SimState) (path : list Point),
    exists (done rest : list Point) (sts : list SimState),
      path = done ++ rest
      /\ serviced_chain distance eta_rf2dc st done sts
      /\ fly distance eta_rf2dc e_safety st path = sts ++ [rth distance (last sts st)]
      /\ match rest with
         | [] => True
         | wp :: _ => can_continue distance eta_rf2dc e_safety (last sts st) wp = false
         end
      /\ position (pdv (rth distance (last sts st))) = base
      /\ nodes (rth distance (last sts st)) = nodes (last sts st)
      /\ charged_e (rth distance (last sts st)) = charged_e (last sts st)
      /\ serviced (rth distance (last sts st)) = serviced (last sts st).
Proof.
  intros distance eta_rf2dc e_safety st path. revert st.
  induction path as [|wp path IH]; intro st.
  - exists [], [], []. simpl. repeat split.
  - simpl. destruct (can_continue distance eta_rf2dc e_safety st wp) eqn:Hc.
    + destruct (IH (service distance eta_rf2dc st wp))
        as (done & rest & sts & Hp & Hch & Hfly & Hrest & Hrth).
      exists (wp :: done), rest, (service distance eta_rf2dc st wp :: sts).
      rewrite last_cons. rewrite Hfly, Hp.
      split; [reflexivity|]. split; [split; [apply service_fully_serviced | exact Hch]|].
      split; [reflexivity|]. split; [exact Hrest | exact Hrth].
    + exists [], (wp :: path), []. simpl. rewrite Hc. repeat split.
Qed.

(** ** Completion ratio *)

Lemma count_requests_charge_at (ns : list SensorNode) (wp : Point) :
  (count_requests (charge_at ns wp) + newly_serviced ns wp)%nat = count_requests ns.
Proof.
  unfold newly_serviced, count_requests.
  induction ns as [|n ns IH]; [reflexivity|].
  simpl. destruct (point_eqb (sn_pos n) wp).
  - simpl. destruct (requests_service n); simpl; lia.
  - simpl. destruct (requests_service n); simpl; lia.
Qed.

(** Serviced requesting nodes plus still-requesting nodes is constant. *)
Lemma fly_end_requests distance eta_rf2dc e_safety (st : SimState) (path : list Point) :
  (serviced (fly_end distance eta_rf2dc e_safety st path)
   + count_requests (nodes (fly_end distance eta_rf2dc e_safety st path)))%nat
  = (serviced st + count_requests (nodes st))%nat.
Proof.
  revert st. induction path as [|wp path IH]; intro st; [reflexivity|].
  simpl. destruct (can_continue distance eta_rf2dc e_safety st wp); [|reflexivity].
  rewrite IH. simpl. rewrite <- (count_requests_charge_at (nodes st) wp). lia.
Qed.

Lemma completion_ratio_exact (s i : nat) :
  (s <= i)%nat ->
  completion_ratio s i == 100 * inject_Z (Z.of_nat s) / inject_Z (Z.of_nat i)
  /\ 0 <= completion_ratio s i /\ completion_ratio s i <= 100.
Proof.
  intro Hsi. unfold completion_ratio.
  destruct i as [|i].
  - assert (s = 0%nat) by lia. subst s. vm_compute. repeat split; discriminate.
  - set (x := 100 * inject_Z (Z.of_nat s) / inject_Z (Z.of_nat (S i))).
    assert (Hi : 0 < inject_Z (Z.of_nat (S i))).
    { change 0 with (inject_Z 0). rewrite <- Zlt_Qlt. lia. }
    assert (Hle : inject_Z (Z.of_nat s) <= inject_Z (Z.of_nat (S i))).
    { rewrite <- Zle_Qle. lia. }
    assert (Hs0 : 0 <= inject_Z (Z.of_nat s)).
    { change 0 with (inject_Z 0). rewrite <- Zle_Qle. lia. }
    assert (Hx0 : 0 <= x).
    { apply Qle_shift_div_l; [exact Hi|]. lra. }
    assert (Hx1 : x <= 100).
    { apply Qle_shift_div_r; [exact Hi|]. lra. }
    assert (Hmin : Qmin 100 x == x) by (apply Q.min_r; exact Hx1).
    assert (Hmax : Qmax 0 (Qmin 100 x) == x).
    { rewrite Hmin. apply Q.max_r. exact Hx0. }
    rewrite Hmax. split; [apply Qeq_refl | split; assumption].
Qed.

Lemma refused_completion (k : ErrorKind) (st0 : SimState) (lst : list SimState) (i : nat) :
  serviced st0 = 0%nat ->
  let r := mkResult (Some k) 0 st0 lst in
  completion r == 100 * inject_Z (Z.of_nat (serviced (final_state r))) / inject_Z (Z.of_nat i)
  /\ 0 <= completion r /\ completion r <= 100.
Proof.
  intros H0 r. cbn [r completion final_state]. rewrite H0.
  split; [|split; [apply Qle_refl | discriminate]].
  unfold Qeq. simpl. reflexivity.
Qed.

(** C7: every run returns [100 * serviced / initially requesting] as its
    completion ratio, and that value lies in [0, 100]. *)
Theorem flightSimulation_completion :
  forall (distance : Point -> Point -> Q) (eta_rf2dc e_safety : Q)
         (min_requests : nat) (pdv0 : PdvState) (sn_list : list SensorNode)
         (path : list Point),
    let r := flightSimulation distance eta_rf2dc e_safety min_requests pdv0 sn_list path in
    completion r == 100 * inject_Z (Z.of_nat (serviced (final_state r)))
                    / inject_Z (Z.of_nat (count_requests sn_list))
    /\ 0 <= completion r /\ completion r <= 100.
Proof.
  intros distance eta_rf2dc e_safety min_requests pdv0 sn_list path r.
  unfold r, flightSimulation.
  destruct (negb (taskCheck min_requests sn_list)).
  - apply refused_completion; reflexivity.
  - destruct path as [|wp path].
    + apply refused_completion; reflexivity.
    + cbn [completion final_state].
      apply completion_ratio_exact.
      pose proof (fly_end_requests distance eta_rf2dc e_safety
                    (initial_state pdv0 sn_list) (wp :: path)) as H.
      simpl in H |- *. lia.
Qed.

(** ** Energy, time and distance along a run *)

Section Invariants.

Variable distance : Point -> Point -> Q.
Variables eta_rf2dc e_safety : Q.
Hypothesis distance_nonneg : forall a b, 0 <= distance a b.

Lemma legTime_nonneg (d : Q) : 0 <= d -> 0 <= legTime d.
Proof.
  intro Hd. unfold legTime, f_speed.
  apply Qle_shift_div_l; [reflexivity|]. lra.
Qed.

Lemma legEnergy_nonneg (d : Q) : 0 <= d -> 0 <= legEnergy d.
Proof.
  intro Hd. pose proof (legTime_nonneg d Hd).
  unfold legEnergy, calcEnergyCostQ, pdv_power, per_leg_overhead.
  apply Qmult_le_0_compat; lra.
Qed.

Lemma iptEnergyCost_nonneg (n : SensorNode) :
  0 < eta_rf2dc -> 0 <= capacitance n -> 0 <= iptEnergyCost eta_rf2dc n.
Proof.
  intros Heta Hc. unfold iptEnergyCost.
  apply Qle_shift_div_l; [lra|].
  rewrite Qmult_0_l. apply Qmult_le_0_compat; [exact Hc | apply Qsqr_nonneg].
Qed.

Lemma find_node_In (ns : list SensorNode) (wp : Point) (n : SensorNode) :
  find_node ns wp = Some n -> In n ns.
Proof.
  induction ns as [|m ns IH]; simpl; [discriminate|].
  destruct (point_eqb (sn_pos m) wp).
  - intro H. injection H as <-. left. reflexivity.
  - intro H. right. exact (IH H).
Qed.

Lemma charge_cost_nonneg (ns : list SensorNode) (wp : Point) :
  0 < eta_rf2dc -> caps_nonneg ns -> 0 <= charge_cost eta_rf2dc ns wp.
Proof.
  intros Heta Hns. unfold charge_cost.
  destruct (find_node ns wp) as [n|] eqn:E; [|apply Qle_refl].
  apply iptEnergyCost_nonneg; [exact Heta|].
  apply find_node_In in E. unfold caps_nonneg in Hns.
  rewrite Forall_forall in Hns. exact (Hns n E).
Qed.

Lemma charge_at_caps (ns : list SensorNode) (wp : Point) :
  caps_nonneg ns -> caps_nonneg (charge_at ns wp).
Proof.
  unfold caps_nonneg. induction 1 as [|n ns Hn Hns IH]; simpl; [constructor|].
  destruct (point_eqb (sn_pos n) wp); constructor; auto.
Qed.

Lemma rth_energy (st : SimState) :
  0 <= remaining_energy (pdv st) ->
  0 <= remaining_energy (pdv (rth distance st))
  /\ remaining_energy (pdv (rth distance st)) <= remaining_energy (pdv st).
Proof.
  intro H0. unfold rth, rth_exhausted. cbn [pdv remaining_energy].
  pose proof (legEnergy_nonneg _ (distance_nonneg (position (pdv st)) base)).
  destruct (Qle_bool (legEnergy (distance (position (pdv st)) base))
                     (remaining_energy (pdv st))) eqn:E; simpl.
  - apply Qle_bool_iff in E. split; lra.
  - split; lra.
Qed.

Lemma fly_energy (st : SimState) (path : list Point) :
  0 < eta_rf2dc -> 0 <= e_safety ->
  0 <= remaining_energy (pdv st) -> caps_nonneg (nodes st) ->
  Forall (fun s => 0 <= remaining_energy (pdv s)) (st :: fly distance eta_rf2dc e_safety st path)
  /\ stepwise (fun s s' => remaining_energy (pdv s') <= remaining_energy (pdv s))
       (st :: fly distance eta_rf2dc e_safety st path).
Proof.
  intros Heta Hsafe. revert st.
  induction path as [|wp path IH]; intros st H0 Hcaps.
  - destruct (rth_energy st H0). simpl. repeat constructor; assumption.
  - simpl. destruct (can_continue distance eta_rf2dc e_safety st wp) eqn:Hc.
    + unfold can_continue, required_energy in Hc. apply Qle_bool_iff in Hc.
      pose proof (legEnergy_nonneg _ (distance_nonneg (position (pdv st)) wp)).
      pose proof (legEnergy_nonneg _ (distance_nonneg wp base)).
      pose proof (charge_cost_nonneg (nodes st) wp Heta Hcaps).
      assert (Hs0 : 0 <= remaining_energy (pdv (service distance eta_rf2dc st wp)))
        by (simpl; lra).
      destruct (IH (service distance eta_rf2dc st wp) Hs0
                   (charge_at_caps (nodes st) wp Hcaps)) as [IHa IHb].
      split; [constructor; assumption|].
      split; [simpl; lra | exact IHb].
    + destruct (rth_energy st H0). repeat constructor; assumption.
Qed.

Lemma fly_clock (st : SimState) (path : list Point) :
  stepwise (fun s s' => flight_time (pdv s) <= flight_time (pdv s')
                        /\ flight_distance (pdv s) <= flight_distance (pdv s'))
    (st :: fly distance eta_rf2dc e_safety st path).
Proof.
  revert st. induction path as [|wp path IH]; intro st.
  - pose proof (distance_nonneg (position (pdv st)) base) as Hd.
    pose proof (legTime_nonneg _ Hd). simpl. split; [split; lra | exact I].
  - simpl. destruct (can_continue distance eta_rf2dc e_safety st wp).
    + pose proof (distance_nonneg (position (pdv st)) wp) as Hd.
      pose proof (legTime_nonneg _ Hd).
      split; [simpl; split; lra | exact (IH _)].
    + pose proof (distance_nonneg (position (pdv st)) base) as Hd.
      pose proof (legTime_nonneg _ Hd). simpl. split; [split; lra | exact I].
Qed.

End Invariants.

Lemma line_distance_nonneg (a b : Point) : 0 <= line_distance a b.
Proof.
  unfold line_distance.
  pose proof (Qabs_nonneg (px a - px b)). pose proof (Qabs_nonneg (py a - py b)). lra.
Qed.

(** C6: in every run (PDV starting with non-negative energy, nodes with
    non-negative capacitance, positive IPT efficiency, non-negative safety
    margin), the remaining energy is non-negative in every observable state
    and never increases from one observable state to the next. *)
Theorem flightSimulation_energy :
  forall (distance : Point -> Point -> Q) (eta_rf2dc e_safety : Q)
         (min_requests : nat) (pdv0 : PdvState) (sn_list : list SensorNode)
         (path : list Point),
    (forall a b, 0 <= distance a b) ->
    0 < eta_rf2dc -> 0 <= e_safety ->
    caps_nonneg sn_list -> 0 <= remaining_energy pdv0 ->
    let obs := observed (flightSimulation distance eta_rf2dc e_safety min_requests
                           pdv0 sn_list path) in
    Forall (fun s => 0 <= remaining_energy (pdv s)) obs
    /\ stepwise (fun s s' => remaining_energy (pdv s') <= remaining_energy (pdv s)) obs.
Proof.
  intros distance eta_rf2dc e_safety min_requests pdv0 sn_list path
         Hd Heta Hsafe Hcaps H0 obs.
  unfold obs, flightSimulation.
  destruct (negb (taskCheck min_requests sn_list)).
  - simpl. split; [constructor; [exact H0 | constructor] | exact I].
  - destruct path as [|wp path].
    + simpl. split; [constructor; [exact H0 | constructor] | exact I].
    + apply fly_energy; assumption.
Qed.

(** Scenario S3 with 100 Wh on board. *)
Lemma flightSimulation_energy_witness :
  let obs := observed (flightSimulation line_distance 0.5 0 3 (sample_pdv 100)
                         s3_nodes s3_path) in
  Forall (fun s => 0 <= remaining_energy (pdv s)) obs
  /\ stepwise (fun s s' => remaining_energy (pdv s') <= remaining_energy (pdv s)) obs.
Proof.
  apply (flightSimulation_energy line_distance 0.5 0 3 (sample_pdv 100) s3_nodes s3_path).
  - exact line_distance_nonneg.
  - vm_compute. reflexivity.
  - vm_compute. discriminate.
  - unfold caps_nonneg. vm_compute. repeat constructor; discriminate.
  - vm_compute. discriminate.
Defined.

(** C8: in every run, each transition leaves the flight time and the
    flight distance greater than or equal to their previous values. *)
Theorem flightSimulation_clock :
  forall (distance : Point -> Point -> Q) (eta_rf2dc e_safety : Q)
         (min_requests : nat) (pdv0 : PdvState) (sn_list : list SensorNode)
         (path : list Point),
    (forall a b, 0 <= distance a b) ->
    stepwise (fun s s' => flight_time (pdv s) <= flight_time (pdv s')
                          /\ flight_distance (pdv s) <= flight_distance (pdv s'))
      (observed (flightSimulation distance eta_rf2dc e_safety min_requests
                   pdv0 sn_list path)).
Proof.
  intros distance eta_rf2dc e_safety min_requests pdv0 sn_list path Hd.
  unfold flightSimulation.
  destruct (negb (taskCheck min_requests sn_list)); [exact I|].
  destruct path as [|wp path]; [exact I|].
  apply fly_clock. exact Hd.
Qed.

(** Scenario S3 with 100 Wh on board. *)
Lemma flightSimulation_clock_witness :
  stepwise (fun s s' => flight_time (pdv s) <= flight_time (pdv s')
                        /\ flight_distance (pdv s) <= flight_distance (pdv s'))
    (observed (flightSimulation line_distance 0.5 0 3 (sample_pdv 100) s3_nodes s3_path)).
Proof.
  apply (flightSimulation_clock line_distance 0.5 0 3 (sample_pdv 100) s3_nodes s3_path).
  exact line_distance_nonneg.
Defined.

(** ** IPT cost *)

(** C4: the IPT cost of node [n] is [C (v_max - v_cur)^2 / (2 eta 3600)] Wh;
    for a node already at [v_max] it is 0, and servicing such a node
    still charges the flight leg to reach it. *)
Theorem iptEnergyCost_formula :
  forall (distance : Point -> Point -> Q) (eta_rf2dc : Q)
         (st : SimState) (wp : Point) (n : SensorNode),
    iptEnergyCost eta_rf2dc n
      = capacitance n * (v_max n - v_current n) ^ 2 / (2 * eta_rf2dc * 3600)
    /\ (v_current n == v_max n -> iptEnergyCost eta_rf2dc n == 0)
    /\ (find_node (nodes st) wp = Some n -> v_current n == v_max n ->
        remaining_energy (pdv (service distance eta_rf2dc st wp))
        == remaining_energy (pdv st) - legEnergy (distance (position (pdv st)) wp)).
Proof.
  intros distance eta_rf2dc st wp n.
  assert (Hz : v_current n == v_max n -> iptEnergyCost eta_rf2dc n == 0).
  { intro Hv. unfold iptEnergyCost.
    setoid_replace (v_max n - v_current n) with 0 by (rewrite Hv; ring).
    unfold Qdiv. simpl. ring. }
  split; [reflexivity|]. split; [exact Hz|].
  intros Hf Hv. cbn [service pdv remaining_energy].
  unfold charge_cost. rewrite Hf. rewrite (Hz Hv). ring.
Qed.

(** Scenario S5: the PDV at the base flies to a node already at [v_max]. *)
Lemma iptEnergyCost_formula_witness :
  let st := initial_state (sample_pdv 187) [full_node] in
  remaining_energy (pdv (service line_distance 0.5 st (mkPoint 100 0)))
  == 187 - legEnergy (line_distance base (mkPoint 100 0)).
Proof.
  intro st.
  exact (proj2 (proj2 (iptEnergyCost_formula line_distance 0.5 st (mkPoint 100 0) full_node))
           ltac:(vm_compute; reflexivity) ltac:(vm_compute; reflexivity)).
Defined.

(** ** Further properties of the accumulator mutators *)



(** The time, energy and distance mutators commute with one another:
    applying two of them in either order gives the same object. *)
Theorem mutators_commute :
  forall (p : PDV) (t e d : Q),
    updateEnergy (updateFlightTime p t) e = updateFlightTime (updateEnergy p e) t
    /\ updateFlightDist (updateFlightTime p t) d = updateFlightTime (updateFlightDist p d) t
    /\ updateFlightDist (updateEnergy p e) d = updateEnergy (updateFlightDist p d) e.
Proof.
  intros p t e d. repeat split.
Qed.




(** ** Further properties of [calcEnergyCost] *)




(** [calcEnergyCost] does not guard against negative times: the cost is
    negative exactly when [t < -5.6e-3] h, and zero at [t = -5.6e-3] h. *)
Theorem calcEnergyCost_negative :
  forall t : Q,
    (dlt (calcEnergyCost (Fin t)) (Fin 0) <-> t < - per_leg_overhead)
    /\ deq (calcEnergyCost (Fin (- per_leg_overhead))) (Fin 0).
Proof.
  intro t. cbn. unfold pdv_power, per_leg_overhead.
  split; [split; intro H; lra | ring].
Qed.
